(** * SysView: a shallow embedding of the sampling-and-presentation pipeline

  The development follows the three Python modules of the monitor:

  - [system.py]   ([SystemStats]): history deques, network rates and peaks,
    per-process CPU histories;
  - [draw.py]     ([Drawer]): the glyph-grid graph, byte formatting and
    the process table window;
  - [__main__.py] ([SysView]): the keyboard state machine and the render
    loop's [update].

  Conventions of the embedding.

  - Python [int] is [Z]; Python [float] is idealised as an exact rational
    [Q] (rounding, infinities and NaN are outside the model).  A float
    division by [0.0] raises [ZeroDivisionError] exactly as in Python.
  - A Python [str] holding user text is a [string]; a rendered line of
    glyphs is a list of Unicode code points, so that its length is the
    number of characters Python's [len] reports.
  - A call that may raise returns an [outcome]; what the metrics provider
    (psutil, the clock, the console) returned at a call is an argument of
    the function that makes the call. *)

From Stdlib Require Import ZArith QArith Qround List String Ascii Lia Bool Sorted.
From stdpp Require Import base list gmap.

Local Open Scope Z_scope.

(** ** Python primitives used by the sources *)

(** Exceptions the modelled code can raise, and the result of a call. *)

Inductive exn : Type :=
| ZeroDivisionError
| TypeError
| ValueError
| IndexError
| KeyError
| UnicodeDecodeError.

Inductive outcome (A : Type) : Type :=
| Ok (a : A)
| Raised (e : exn).
Arguments Ok {A} a.
Arguments Raised {A} e.

Definition bind {A B : Type} (c : outcome A) (k : A -> outcome B) : outcome B :=
  match c with
  | Ok a => k a
  | Raised e => Raised e
  end.

Definition is_ok {A : Type} (c : outcome A) : bool :=
  match c with Ok _ => true | Raised _ => false end.

Module Py.

(** [a / b] on floats. *)
Definition truediv (a b : Q) : outcome Q :=
  if Qeq_bool b 0 then Raised ZeroDivisionError else Ok (a / b)%Q.

Definition Qltb (a b : Q) : bool := negb (Qle_bool b a).

(** [max(a, b)]: the first argument unless the second is strictly greater. *)
Definition max2 (a b : Q) : Q := if Qltb a b then b else a.

(** [max(l)] on a list: [ValueError] on the empty list. *)
Definition max_list (l : list Q) : outcome Q :=
  match l with
  | [] => Raised ValueError
  | x :: r => Ok (fold_left max2 r x)
  end.

(** [int(x)] on a float: truncation toward zero. *)
Definition int_of (x : Q) : Z := Z.quot (Qnum x) (Zpos (Qden x)).

(** How a slice bound [i] is clipped against a sequence of length [len]. *)
Definition norm_index (len i : Z) : Z :=
  if i <? 0 then Z.max 0 (len + i) else Z.min i len.

(** [l[start:stop]]. *)
Definition slice {A : Type} (l : list A) (start stop : Z) : list A :=
  let n := Z.of_nat (length l) in
  let s := norm_index n start in
  let e := norm_index n stop in
  take (Z.to_nat (e - s)) (drop (Z.to_nat s) l).

(** [l[start:]]. *)
Definition slice_from {A : Type} (l : list A) (start : Z) : list A :=
  drop (Z.to_nat (norm_index (Z.of_nat (length l)) start)) l.

(** [l[i]]: [IndexError] outside [-len .. len-1]. *)
Definition getitem {A : Type} (l : list A) (i : Z) : outcome A :=
  let n := Z.of_nat (length l) in
  let j := if i <? 0 then i + n else i in
  if (0 <=? j) && (j <? n)
  then match l !! Z.to_nat j with
       | Some x => Ok x
       | None => Raised IndexError
       end
  else Raised IndexError.

(** [[x] * n] and [" " * n]: a non-positive count gives the empty sequence. *)
Definition repeat_z {A : Type} (x : A) (n : Z) : list A := repeat x (Z.to_nat n).

(** [range(n)]. *)
Definition range (n : Z) : list Z := map Z.of_nat (seq 0 (Z.to_nat n)).

(** [range(n - 1, -1, -1)]: [n - 1], [n - 2], ..., [0]. *)
Definition range_down (n : Z) : list Z :=
  map (fun k => n - 1 - Z.of_nat k) (seq 0 (Z.to_nat n)).

(** [c.lower()] on an ASCII character. *)
Definition lower_ascii (c : ascii) : ascii :=
  let n := nat_of_ascii c in
  if ((65 <=? n) && (n <=? 90))%nat then ascii_of_nat (n + 32) else c.

(** [s.lower()] on ASCII text. *)
Fixpoint lower (s : string) : string :=
  match s with
  | EmptyString => EmptyString
  | String c r => String (lower_ascii c) (lower r)
  end.

(** [needle in hay] on strings: substring test. *)
Fixpoint contains (needle hay : string) : bool :=
  String.prefix needle hay ||
  match hay with
  | EmptyString => false
  | String _ r => contains needle r
  end.

(** [s[:-1]]. *)
Fixpoint drop_last (s : string) : string :=
  match s with
  | EmptyString => EmptyString
  | String c EmptyString => EmptyString
  | String c r => String c (drop_last r)
  end.

(** [s += c] for a one-character string [c]. *)
Definition push_char (s : string) (c : ascii) : string :=
  String.append s (String c EmptyString).

End Py.

(** [outcome] is a monad; [x ← c; k] sequences two calls and propagates
  the first exception. *)
#[global] Instance outcome_ret : MRet outcome := @Ok.
#[global] Instance outcome_bind : MBind outcome := fun A B k c => bind c k.

(** ** [collections.deque] with a [maxlen] *)

Module Deque.

Record deque (A : Type) : Type := MkDeque { maxlen : nat; items : list A }.
Arguments MkDeque {A} maxlen items.
Arguments maxlen {A} d.
Arguments items {A} d.

(** [deque(maxlen=n)]. *)
Definition new {A : Type} (n : nat) : deque A := MkDeque n [].

(** [d.append(x)]: push on the right, then drop the leftmost element when
    the bound is exceeded. *)
Definition append {A : Type} (d : deque A) (x : A) : deque A :=
  let l := items d ++ [x] in
  MkDeque (maxlen d) (if (maxlen d <? length l)%nat then drop 1 l else l).

(** [len(d)]. *)
Definition len {A : Type} (d : deque A) : nat := length (items d).

(** [d.pop(0)]: [deque.pop] takes no argument, so the call raises. *)
Definition pop_at {A : Type} (d : deque A) (i : Z) : outcome (deque A) :=
  Raised TypeError.

End Deque.

(** ** [system.py]: [SystemStats] *)

Module System.

(** *** What the metrics provider returns *)

(** [psutil.net_io_counters()]. *)
Record net_io : Type := MkNetIo {
  bytes_sent : Z;
  bytes_recv : Z;
  packets_sent : Z;
  packets_recv : Z
}.

(** One network observation: the counters and [time.time()] read with them. *)
Record net_sample : Type := MkNetSample {
  ns_io : net_io;
  ns_time : Q
}.

(** [psutil.cpu_freq()]. *)
Record cpu_freq : Type := MkCpuFreq {
  freq_current : Q;
  freq_min : Q;
  freq_max : Q
}.

(** One CPU observation.  [cs_freq] is the result of [psutil.cpu_freq()]
    ([Ok None] when it returns [None]); [cs_temps] that of
    [psutil.sensors_temperatures()], as the items of the returned dict, each
    sensor with the [current] readings of its entries. *)
Record cpu_sample : Type := MkCpuSample {
  cs_total : Q;
  cs_per_cpu : list Q;
  cs_freq : outcome (option cpu_freq);
  cs_temps : outcome (list (string * list Q))
}.

(** [psutil.virtual_memory()] and [psutil.swap_memory()]; [cached] and
    [buffers] are absent on some platforms. *)
Record mem_sample : Type := MkMemSample {
  total : Z;
  available : Z;
  used : Z;
  free : Z;
  percent : Q;
  cached : option Z;
  buffers : option Z;
  swap_total : Z;
  swap_used : Z;
  swap_free : Z;
  swap_percent : Q
}.

(** The [info] dict of one process of [psutil.process_iter]. *)
Record proc_info : Type := MkProcInfo {
  pid : Z;
  name : string;
  username : string;
  cpu_percent : Q;
  memory_percent : Q;
  create_time : Q;
  status : string;
  num_threads : Z
}.

(** One enumerated process: its [info], and what [proc.memory_info()]
    ([rss], [vms]) and [proc.cmdline()] return or raise. *)
Record raw_proc : Type := MkRawProc {
  rp_info : proc_info;
  rp_memory_info : outcome (Z * Z);
  rp_cmdline : outcome (list string)
}.

(** [psutil.sensors_battery()]; [secsleft] is compared with
    [psutil.POWER_TIME_UNLIMITED]. *)
Record battery_raw : Type := MkBatteryRaw {
  b_percent : Q;
  b_power_plugged : bool;
  b_secsleft : Z
}.

Definition POWER_TIME_UNLIMITED : Z := -2.

(** [platform.*], [psutil.boot_time()] and [time.time()]. *)
Record host_sample : Type := MkHostSample {
  hs_hostname : string;
  hs_platform : string;
  hs_release : string;
  hs_version : string;
  hs_machine : string;
  hs_processor : string;
  hs_boot_time : Q;
  hs_now : Q
}.

(** [psutil.disk_usage(path)]. *)
Record usage : Type := MkUsage {
  u_total : Z;
  u_used : Z;
  u_free : Z;
  u_percent : Q
}.

(** One entry of [psutil.disk_partitions(all=True)]. *)
Record partition : Type := MkPartition {
  pt_device : string;
  pt_mountpoint : string;
  pt_fstype : string
}.

(** One value of [psutil.disk_io_counters(perdisk=True)]. *)
Record disk_io : Type := MkDiskIo {
  read_bytes : Z;
  write_bytes : Z;
  read_count : Z;
  write_count : Z
}.

(** What the disk queries answer at one call of [get_disk_stats]:
    [platform.system()], [GetLogicalDrives()], [psutil.disk_usage],
    [GetDriveTypeW], [psutil.disk_partitions(all=True)] and the items of
    [psutil.disk_io_counters(perdisk=True)]. *)
Record disk_env : Type := MkDiskEnv {
  de_system : string;
  de_bitmask : Z;
  de_usage : string -> outcome usage;
  de_drive_type : string -> Z;
  de_partitions : outcome (list partition);
  de_io : outcome (list (string * disk_io))
}.

(** *** What the getters return *)

Record cpu_out : Type := MkCpuOut {
  c_total : Q;
  c_per_cpu : list Q;
  c_freq_current : Q;
  c_freq_min : Q;
  c_freq_max : Q;
  c_temp : option Q;
  c_history : list Q
}.

(** The dict of [get_memory_stats] copies the sample's fields; its
    ['history'] entry is the live deque [memory_history] itself, not a copy,
    and is read through the [SystemStats] that owns it. *)
Record memory_out : Type := MkMemoryOut {
  m_sample : mem_sample
}.

Record net_out : Type := MkNetOut {
  n_bytes_sent : Z;
  n_bytes_recv : Z;
  n_packets_sent : Z;
  n_packets_recv : Z;
  n_send_speed : Q;
  n_recv_speed : Q;
  n_peak_send_speed : Q;
  n_peak_recv_speed : Q;
  n_history : list (Q * Q)
}.

Record proc_row : Type := MkProcRow {
  r_info : proc_info;
  r_cpu_history : list Q;
  r_memory_rss : Z;
  r_memory_vms : Z;
  r_cmdline : string
}.

Record system_info : Type := MkSystemInfo {
  si_hostname : string;
  si_platform : string;
  si_platform_release : string;
  si_platform_version : string;
  si_architecture : string;
  si_processor : string;
  si_boot_time : Q;
  si_uptime : Q
}.

Record disk_data : Type := MkDiskData {
  d_device : string;
  d_mountpoint : string;
  d_fstype : string;
  d_label : string;
  d_type : string;
  d_total : Z;
  d_used : Z;
  d_free : Z;
  d_percent : Q;
  d_io : option disk_io
}.

Record battery_info : Type := MkBatteryInfo {
  bi_percent : Q;
  bi_power_plugged : bool;
  bi_seconds_left : option Z
}.

(** *** The state of a [SystemStats] object

    The attributes [last_net_io], [last_disk_io], [last_cpu_percent] and
    [update_interval] are written once by [__init__] and never read; they
    are left out. *)
Record SystemStats : Type := MkSystemStats {
  cpu_history : Deque.deque Q;
  memory_history : Deque.deque Q;
  net_history : Deque.deque (Q * Q);
  process_cpu_history : gmap Z (Deque.deque Q);
  prev_net_io : net_io;
  prev_time : Q;
  peak_send_speed : Q;
  peak_recv_speed : Q
}.

(** [SystemStats.__init__]: [io0] and [t0] are the counters and the clock
    read at construction. *)
Definition init (io0 : net_io) (t0 : Q) : SystemStats :=
  {| cpu_history := Deque.new 100;
     memory_history := Deque.new 100;
     net_history := Deque.new 100;
     process_cpu_history := ∅;
     prev_net_io := io0;
     prev_time := t0;
     peak_send_speed := 0;
     peak_recv_speed := 0 |}.

(** *** [get_cpu_stats] *)

Definition cpu_sensor_names : list string :=
  ["coretemp"%string; "cpu_thermal"%string; "k10temp"%string].

Definition is_cpu_sensor (nm : string) : bool :=
  existsb (String.eqb (Py.lower nm)) cpu_sensor_names.

(** The loop over [temps.items()]: the first sensor with a CPU name decides;
    an empty entry list makes [entries[0]] raise, which the enclosing
    [except Exception: pass] turns into "no temperature". *)
Fixpoint find_temp (temps : list (string * list Q)) : option Q :=
  match temps with
  | [] => None
  | (nm, entries) :: rest =>
      if is_cpu_sensor nm
      then match entries with
           | [] => None
           | e :: _ => Some e
           end
      else find_temp rest
  end.

Definition read_temp (check_temp : bool) (temps : outcome (list (string * list Q)))
  : option Q :=
  if check_temp
  then match temps with
       | Ok ts => find_temp ts
       | Raised _ => None
       end
  else None.

Definition read_freq (f : outcome (option cpu_freq)) : Q * Q * Q :=
  match f with
  | Ok (Some fr) => (freq_current fr, freq_min fr, freq_max fr)
  | Ok None => (0, 0, 0)%Q
  | Raised _ => (0, 0, 0)%Q
  end.

Definition get_cpu_stats (check_temp : bool) (st : SystemStats) (s : cpu_sample)
  : cpu_out * SystemStats :=
  let '(fc, fmin, fmax) := read_freq (cs_freq s) in
  let temp := read_temp check_temp (cs_temps s) in
  let h := Deque.append (cpu_history st) (cs_total s) in
  ({| c_total := cs_total s;
      c_per_cpu := cs_per_cpu s;
      c_freq_current := fc;
      c_freq_min := fmin;
      c_freq_max := fmax;
      c_temp := temp;
      c_history := Deque.items h |},
   {| cpu_history := h;
      memory_history := memory_history st;
      net_history := net_history st;
      process_cpu_history := process_cpu_history st;
      prev_net_io := prev_net_io st;
      prev_time := prev_time st;
      peak_send_speed := peak_send_speed st;
      peak_recv_speed := peak_recv_speed st |}).

(** *** [get_memory_stats]

    After the append, [if len(self.memory_history) > 100:
    self.memory_history.pop(0)]; the state returned with an exception is the
    state at the raise (the append has happened). *)
Definition set_memory_history (st : SystemStats) (h : Deque.deque Q) : SystemStats :=
  {| cpu_history := cpu_history st;
     memory_history := h;
     net_history := net_history st;
     process_cpu_history := process_cpu_history st;
     prev_net_io := prev_net_io st;
     prev_time := prev_time st;
     peak_send_speed := peak_send_speed st;
     peak_recv_speed := peak_recv_speed st |}.

Definition get_memory_stats (st : SystemStats) (m : mem_sample)
  : outcome memory_out * SystemStats :=
  let h := Deque.append (memory_history st) (percent m) in
  if (100 <? Deque.len h)%nat
  then match Deque.pop_at h 0 with
       | Ok h' => (Ok {| m_sample := m |}, set_memory_history st h')
       | Raised e => (Raised e, set_memory_history st h)
       end
  else (Ok {| m_sample := m |}, set_memory_history st h).

(** *** [get_network_stats]

    The two divisions come before any assignment to [self], so a
    [ZeroDivisionError] leaves the state as it was; the histories' guard
    [if len(self.net_history) > 100: self.net_history.pop(0)] comes after the
    peaks and the append. *)

Definition get_network_stats (st : SystemStats) (s : net_sample)
  : outcome net_out * SystemStats :=
  let current_net_io := ns_io s in
  let current_time := ns_time s in
  let time_delta := (current_time - prev_time st)%Q in
  let sent := bytes_sent current_net_io - bytes_sent (prev_net_io st) in
  let recv := bytes_recv current_net_io - bytes_recv (prev_net_io st) in
  match Py.truediv (inject_Z sent) time_delta with
  | Raised e => (Raised e, st)
  | Ok send_speed =>
    match Py.truediv (inject_Z recv) time_delta with
    | Raised e => (Raised e, st)
    | Ok recv_speed =>
      let peak_s := Py.max2 (peak_send_speed st) send_speed in
      let peak_r := Py.max2 (peak_recv_speed st) recv_speed in
      let h := Deque.append (net_history st) (send_speed, recv_speed) in
      let st1 :=
        {| cpu_history := cpu_history st;
           memory_history := memory_history st;
           net_history := h;
           process_cpu_history := process_cpu_history st;
           prev_net_io := prev_net_io st;
           prev_time := prev_time st;
           peak_send_speed := peak_s;
           peak_recv_speed := peak_r |} in
      let finish (h' : Deque.deque (Q * Q)) :=
        (Ok {| n_bytes_sent := bytes_sent current_net_io;
               n_bytes_recv := bytes_recv current_net_io;
               n_packets_sent := packets_sent current_net_io;
               n_packets_recv := packets_recv current_net_io;
               n_send_speed := send_speed;
               n_recv_speed := recv_speed;
               n_peak_send_speed := peak_s;
               n_peak_recv_speed := peak_r;
               n_history := Deque.items h' |},
         {| cpu_history := cpu_history st;
            memory_history := memory_history st;
            net_history := h';
            process_cpu_history := process_cpu_history st;
            prev_net_io := current_net_io;
            prev_time := current_time;
            peak_send_speed := peak_s;
            peak_recv_speed := peak_r |}) in
      if (100 <? Deque.len h)%nat
      then match Deque.pop_at h 0 with
           | Raised e => (Raised e, st1)
           | Ok h' => finish h'
           end
      else finish h
    end
  end.

(** *** [get_process_stats] *)

(** The body of the loop for one process: the private history of its pid is
    created on first sight ([deque(maxlen=10)]) and extended; a raising
    [memory_info()] gives zeros, a raising [cmdline()] the empty string. *)
Definition observe_process (hist : gmap Z (Deque.deque Q)) (p : raw_proc)
  : proc_row * gmap Z (Deque.deque Q) :=
  let info := rp_info p in
  let d := Deque.append (default (Deque.new 10) (hist !! pid info)) (cpu_percent info) in
  let '(rss, vms) := match rp_memory_info p with
                     | Ok mi => mi
                     | Raised _ => (0, 0)
                     end in
  let cmd := match rp_cmdline p with
             | Ok parts => String.concat " " parts
             | Raised _ => EmptyString
             end in
  ({| r_info := info;
      r_cpu_history := Deque.items d;
      r_memory_rss := rss;
      r_memory_vms := vms;
      r_cmdline := cmd |},
   <[pid info := d]> hist).

Fixpoint observe_all (hist : gmap Z (Deque.deque Q)) (procs : list raw_proc)
  : list proc_row * gmap Z (Deque.deque Q) :=
  match procs with
  | [] => ([], hist)
  | p :: rest =>
      let '(row, hist1) := observe_process hist p in
      let '(rows, hist2) := observe_all hist1 rest in
      (row :: rows, hist2)
  end.

(** The clean-up after the loop: [dead_pids = set(keys) - current_pids],
    then [del] each of them. *)
Definition drop_dead (hist : gmap Z (Deque.deque Q)) (rows : list proc_row)
  : gmap Z (Deque.deque Q) :=
  let current_pids : gset Z := list_to_set (map (fun r => pid (r_info r)) rows) in
  let dead_pids : gset Z := dom hist ∖ current_pids in
  foldr delete hist (elements dead_pids).

Definition get_process_stats (st : SystemStats) (procs : list raw_proc)
  : list proc_row * SystemStats :=
  let '(rows, hist) := observe_all (process_cpu_history st) procs in
  (rows,
   {| cpu_history := cpu_history st;
      memory_history := memory_history st;
      net_history := net_history st;
      process_cpu_history := drop_dead hist rows;
      prev_net_io := prev_net_io st;
      prev_time := prev_time st;
      peak_send_speed := peak_send_speed st;
      peak_recv_speed := peak_recv_speed st |}).

(** *** [get_system_info] and [get_battery_info] *)

Definition get_system_info (h : host_sample) : system_info :=
  {| si_hostname := hs_hostname h;
     si_platform := hs_platform h;
     si_platform_release := hs_release h;
     si_platform_version := hs_version h;
     si_architecture := hs_machine h;
     si_processor := hs_processor h;
     si_boot_time := hs_boot_time h;
     si_uptime := (hs_now h - hs_boot_time h)%Q |}.

Definition get_battery_info (b : outcome (option battery_raw)) : option battery_info :=
  match b with
  | Ok (Some bat) =>
      Some {| bi_percent := b_percent bat;
              bi_power_plugged := b_power_plugged bat;
              bi_seconds_left :=
                if b_secsleft bat =? POWER_TIME_UNLIMITED
                then None else Some (b_secsleft bat) |}
  | Ok None => None
  | Raised _ => None
  end.

(** *** [get_disk_stats] *)

Definition ascii_uppercase : list ascii :=
  map (fun k => ascii_of_nat (65 + k)) (seq 0 26).

Definition chr1 (c : ascii) : string := String c EmptyString.

(** The drive path of a letter: the letter, a colon and one backslash. *)
Definition drive_of (letter : ascii) : string :=
  String letter (String ":"%char (String (ascii_of_nat 92) EmptyString)).

(** [bitmask & (1 << (ord(letter) - ord('A')))], as a truth value. *)
Definition drive_present (bitmask : Z) (letter : ascii) : bool :=
  negb (Z.land bitmask (Z.shiftl 1 (Z.of_nat (nat_of_ascii letter) - 65)) =? 0).

(** [drive_types.get(drive_type, "Unknown")]. *)
Definition drive_type_str (t : Z) : string :=
  if t =? 0 then "Unknown"
  else if t =? 1 then "Invalid"
  else if t =? 2 then "Removable"
  else if t =? 3 then "Fixed"
  else if t =? 4 then "Network"
  else if t =? 5 then "CDROM"
  else if t =? 6 then "RAM disk"
  else "Unknown".

(** The label of a drive: the mount point of the first partition whose
    device starts with the letter, else (or when the query raises)
    [f"Disk {letter}"]. *)
Definition default_label (letter : ascii) : string :=
  String.append "Disk " (chr1 letter).

Fixpoint find_label (letter : ascii) (parts : list partition) : option string :=
  match parts with
  | [] => None
  | p :: rest =>
      if String.prefix (chr1 letter) (pt_device p)
      then Some (pt_mountpoint p)
      else find_label letter rest
  end.

Definition windows_label (letter : ascii) (parts : outcome (list partition)) : string :=
  match parts with
  | Ok ps => default (default_label letter) (find_label letter ps)
  | Raised _ => default_label letter
  end.

(** The I/O counters of a drive: the first counter whose lowercased name
    starts with the lowercased letter. *)
Fixpoint find_io_prefix (letter : ascii) (io : list (string * disk_io)) : option disk_io :=
  match io with
  | [] => None
  | (nm, c) :: rest =>
      if String.prefix (Py.lower (chr1 letter)) (Py.lower nm)
      then Some c
      else find_io_prefix letter rest
  end.

Definition windows_io (letter : ascii) (io : outcome (list (string * disk_io)))
  : option disk_io :=
  match io with
  | Ok items => find_io_prefix letter items
  | Raised _ => None
  end.

(** One iteration of the loop over the drive letters: [None] is
    "nothing appended" (bit clear, or [disk_usage] raised and the
    [except: continue] was taken). *)
Definition windows_disk (env : disk_env) (letter : ascii) : option disk_data :=
  if drive_present (de_bitmask env) letter
  then
    let drive := drive_of letter in
    match de_usage env drive with
    | Raised _ => None
    | Ok u =>
        Some {| d_device := drive;
                d_mountpoint := drive;
                d_fstype := "NTFS";
                d_label := windows_label letter (de_partitions env);
                d_type := drive_type_str (de_drive_type env drive);
                d_total := u_total u;
                d_used := u_used u;
                d_free := u_free u;
                d_percent := u_percent u;
                d_io := windows_io letter (de_io env) |}
    end
  else None.

(** [s.split('/')[-1]]: what follows the last slash. *)
Fixpoint last_component_from (acc s : string) : string :=
  match s with
  | EmptyString => acc
  | String c r =>
      if Ascii.eqb c "/"%char
      then last_component_from EmptyString r
      else last_component_from (String.append acc (chr1 c)) r
  end.

Definition last_component (s : string) : string :=
  last_component_from EmptyString s.

(** [io[device_name]] guarded by [device_name in io]. *)
Fixpoint find_io_key (key : string) (io : list (string * disk_io)) : option disk_io :=
  match io with
  | [] => None
  | (nm, c) :: rest =>
      if String.eqb nm key then Some c else find_io_key key rest
  end.

Definition unix_io (device : string) (io : outcome (list (string * disk_io)))
  : option disk_io :=
  match io with
  | Ok items => find_io_key (last_component device) items
  | Raised _ => None
  end.

Definition unix_disk (env : disk_env) (p : partition) : option disk_data :=
  match de_usage env (pt_mountpoint p) with
  | Raised _ => None
  | Ok u =>
      Some {| d_device := pt_device p;
              d_mountpoint := pt_mountpoint p;
              d_fstype := pt_fstype p;
              d_label := pt_mountpoint p;
              d_type := "Fixed";
              d_total := u_total u;
              d_used := u_used u;
              d_free := u_free u;
              d_percent := u_percent u;
              d_io := unix_io (pt_device p) (de_io env) |}
  end.

(** [get_disk_stats]: on the Unix branch the partitions are listed outside
    any [try], so a raising query leaves the function. *)
Definition get_disk_stats (env : disk_env) : outcome (list disk_data) :=
  if String.eqb (de_system env) "Windows"
  then Ok (omap (windows_disk env) ascii_uppercase)
  else
    match de_partitions env with
    | Raised e => Raised e
    | Ok parts => Ok (omap (unix_disk env) parts)
    end.

End System.

(** ** [themes.py]: the palettes *)

Module Themes.

(** A palette maps each semantic role to a style token. *)
Record theme : Type := MkTheme {
  header : string;
  footer : string;
  border : string;
  title : string;
  text : string;
  highlight : string;
  cpu : string;
  memory : string;
  network : string;
  disk : string;
  process : string;
  graph : string;
  progress_low : string;
  progress_medium : string;
  progress_high : string
}.

Definition default : theme :=
  MkTheme "white on blue" "white on blue" "white" "white" "white" "cyan"
          "blue" "magenta" "green" "yellow" "cyan" "blue"
          "green" "yellow" "red".

Definition nord : theme :=
  MkTheme "black on cyan" "black on cyan" "#81A1C1" "#88C0D0" "#D8DEE9" "#81A1C1"
          "#5E81AC" "#B48EAD" "#A3BE8C" "#EBCB8B" "#88C0D0" "#81A1C1"
          "#A3BE8C" "#EBCB8B" "#BF616A".

Definition dracula : theme :=
  MkTheme "white on purple" "white on purple" "#BD93F9" "#FF79C6" "#F8F8F2" "#8BE9FD"
          "#BD93F9" "#FF79C6" "#50FA7B" "#F1FA8C" "#8BE9FD" "#BD93F9"
          "#50FA7B" "#FFB86C" "#FF5555".

Definition gruvbox : theme :=
  MkTheme "black on yellow" "black on yellow" "#928374" "#b8bb26" "#ebdbb2" "#83a598"
          "#458588" "#b16286" "#98971a" "#d79921" "#83a598" "#928374"
          "#98971a" "#d79921" "#cc241d".

(** [THEMES.get(name, THEMES["default"])], as [SysView.__init__] reads it. *)
Definition THEMES_get (theme_name : string) : theme :=
  if String.eqb theme_name "default" then default
  else if String.eqb theme_name "nord" then nord
  else if String.eqb theme_name "dracula" then dracula
  else if String.eqb theme_name "gruvbox" then gruvbox
  else default.

End Themes.

(** ** [draw.py]: [Drawer] *)

Module Draw.

(** A character is its Unicode code point; a rendered line is a list of
    characters. *)
Abbreviation glyph := Z (only parsing).
Abbreviation line := (list Z) (only parsing).

Definition SPACE : glyph := 32.

(** The three glyph tables.  [BRAILLE_CHARS] lists U+2800 .. U+283F in
    order, [BLOCK_CHARS] U+2581 .. U+2588. *)
Definition BRAILLE_CHARS : list glyph :=
  map (fun k => 10240 + Z.of_nat k) (seq 0 64).

Definition BLOCK_CHARS : list glyph :=
  [9601; 9602; 9603; 9604; 9605; 9606; 9607; 9608].

Definition TTY_CHARS : list glyph := [95; 9604; 9608].

(** [self.graph_chars[graph_type]]: a dict with three keys. *)
Definition graph_chars (graph_type : string) : outcome (list glyph) :=
  if String.eqb graph_type "braille" then Ok BRAILLE_CHARS
  else if String.eqb graph_type "block" then Ok BLOCK_CHARS
  else if String.eqb graph_type "tty" then Ok TTY_CHARS
  else Raised KeyError.

(** A loop that builds a list and stops at the first exception. *)
Fixpoint traverse {A B : Type} (f : A -> outcome B) (l : list A) : outcome (list B) :=
  match l with
  | [] => Ok []
  | a :: r =>
      b ← f a;
      bs ← traverse f r;
      Ok (b :: bs)
  end.

(** [[" " * width] * height]. *)
Definition blank_grid (width height : Z) : list line :=
  Py.repeat_z (Py.repeat_z SPACE width) height.

(** [min(height - 1, int(ratio * height))]. *)
Definition clamp_level (height : Z) (ratio : Q) : Z :=
  Z.min (height - 1) (Py.int_of (ratio * inject_Z height)%Q).

(** [min(height - 1, int((v / max_val) * height))]. *)
Definition normalize (height : Z) (max_val v : Q) : outcome Z :=
  ratio ← Py.truediv v max_val;
  Ok (clamp_level height ratio).

(** One cell of the grid: [chars[-1]] when [normalized[x] >= y], else
    [chars[0]]. *)
Definition cell (chars : list glyph) (normalized : list Z) (y x : Z) : outcome glyph :=
  val ← Py.getitem normalized x;
  if y <=? val then Py.getitem chars (-1) else Py.getitem chars 0.

Definition create_graph (graph_type : string) (values : list Q) (width height : Z)
  : outcome (list line) :=
  chars ← graph_chars graph_type;
  match values with
  | [] => Ok (blank_grid width height)
  | _ :: _ =>
      let values_list :=
        if width <? Z.of_nat (length values)
        then Py.slice_from values (- width)
        else values in
      max_val ← Py.max_list values_list;
      if Qeq_bool max_val 0 then Ok (blank_grid width height)
      else
        let values_list :=
          if Z.of_nat (length values_list) <? width
          then Py.repeat_z 0%Q (width - Z.of_nat (length values_list)) ++ values_list
          else values_list in
        normalized ← traverse (normalize height max_val) values_list;
        traverse (fun y => traverse (cell chars normalized y) (Py.range width))
                 (Py.range_down height)
  end.

(** *** Byte formatting

    The number printed with one decimal is kept as a rational; the result
    is the scaled value and its unit. *)
Inductive human : Type :=
| NA
| Human (value : Q) (unit : string).

(** [for unit in units: if x < base: return ...; x /= base]: either the
    loop returns, or it ends with [x] divided once per unit. *)
Fixpoint unit_loop (base : Q) (units : list string) (x : Q) : (Q * string) + Q :=
  match units with
  | [] => inr x
  | u :: rest =>
      if Py.Qltb x base then inl (x, u) else unit_loop base rest (x / base)%Q
  end.

Definition _format_bytes (bytes : option Q) : human :=
  match bytes with
  | None => NA
  | Some b =>
      match unit_loop 1024 ["B"; "KB"; "MB"; "GB"; "TB"]%string b with
      | inl (v, u) => Human v u
      | inr v => Human v "PB"
      end
  end.

(** [_format_speed]: the formatted bytes, to which the suffix [/s] is
    appended. *)
Definition _format_speed (bytes_per_sec : Q) : human :=
  _format_bytes (Some bytes_per_sec).

Definition size_units : list string := ["B"; "KB"; "MB"; "GB"; "TB"; "PB"]%string.

(** [format_size]: [units[-1]] labels the value left by the loop. *)
Definition format_size (base_10_sizes : bool) (size : Q) : human :=
  let base := if base_10_sizes then 1000%Q else 1024%Q in
  match unit_loop base size_units size with
  | inl (v, u) => Human v u
  | inr v => Human v "PB"
  end.

(** *** Colour tiers *)

(** [a if v > hi else b if v > mid else c]. *)
Definition tier {A : Type} (hi mid : Q) (a b c : A) (v : Q) : A :=
  if Py.Qltb hi v then a else if Py.Qltb mid v then b else c.

(** [create_progress_bar]: the colour of the bar. *)
Definition create_progress_bar (value : Q) : string :=
  tier 80 60 "red"%string "yellow"%string "green"%string value.

(** *** The panels

    A panel is described by what the code decides: styles, formatted
    numbers, glyph grids and table rows. *)

Record cpu_panel : Type := MkCpuPanel {
  cp_total_style : string;
  cp_core_styles : list string;
  cp_graph : list line;
  cp_frequency : option Q;
  cp_temperature : option (Q * string)
}.

(** [draw_cpu]: [stats.get('freq_current')] and [stats.get('temp')] are
    tested for truth, so a zero frequency or temperature is not shown. *)
Definition draw_cpu (graph_type : string) (stats : System.cpu_out) : outcome cpu_panel :=
  let total_style :=
    tier 90 70 "red"%string "yellow"%string "green"%string (System.c_total stats) in
  let core_styles :=
    map (tier 90 70 "red"%string "yellow"%string "blue"%string) (System.c_per_cpu stats) in
  history_graph ← create_graph graph_type (System.c_history stats) 50 10;
  let frequency :=
    if Qeq_bool (System.c_freq_current stats) 0 then None
    else Some (System.c_freq_current stats) in
  let temperature :=
    match System.c_temp stats with
    | None => None
    | Some t =>
        if Qeq_bool t 0 then None
        else Some (t, tier 80 60 "red"%string "yellow"%string "green"%string t)
    end in
  Ok {| cp_total_style := total_style;
        cp_core_styles := core_styles;
        cp_graph := history_graph;
        cp_frequency := frequency;
        cp_temperature := temperature |}.

Record memory_panel : Type := MkMemoryPanel {
  mp_ram : human * human;
  mp_ram_style : string;
  mp_available : human;
  mp_cached : option human;
  mp_buffers : option human;
  mp_swap : option (human * human * string * human);
  mp_graph : list line
}.

Definition fmt_int (n : Z) : human := _format_bytes (Some (inject_Z n)).

(** [draw_memory]: [history] is the content of the live deque that the
    dict's ['history'] entry refers to. *)
Definition draw_memory (graph_type : string) (stats : System.memory_out)
  (history : list Q) : outcome memory_panel :=
  let m := System.m_sample stats in
  let swap :=
    if 0 <? System.swap_total m
    then Some (fmt_int (System.swap_used m), fmt_int (System.swap_total m),
               tier 50 25 "red"%string "yellow"%string "blue"%string (System.swap_percent m),
               fmt_int (System.swap_total m - System.swap_used m))
    else None in
  history_graph ← create_graph graph_type history 50 8;
  Ok {| mp_ram := (fmt_int (System.used m), fmt_int (System.total m));
        mp_ram_style :=
          tier 90 70 "red"%string "yellow"%string "green"%string (System.percent m);
        mp_available := fmt_int (System.available m);
        mp_cached := option_map fmt_int (System.cached m);
        mp_buffers := option_map fmt_int (System.buffers m);
        mp_swap := swap;
        mp_graph := history_graph |}.

Record network_panel : Type := MkNetworkPanel {
  np_up : human * string * human * Z;
  np_down : human * string * human * Z;
  np_peak_up : human;
  np_peak_down : human;
  np_up_graph : list line;
  np_down_graph : list line;
  np_total_speed : human
}.

Definition speed_style (speed : Q) : string :=
  tier (inject_Z (1024 * 1024 * 10)) (inject_Z (1024 * 1024))
       "red"%string "yellow"%string "green"%string speed.

Definition draw_network (graph_type : string) (stats : System.net_out)
  : outcome network_panel :=
  let up_speed := System.n_send_speed stats in
  let down_speed := System.n_recv_speed stats in
  let upload_history := map fst (System.n_history stats) in
  let download_history := map snd (System.n_history stats) in
  up_graph ← create_graph graph_type upload_history 50 4;
  down_graph ← create_graph graph_type download_history 50 4;
  Ok {| np_up := (_format_speed up_speed, speed_style up_speed,
                  fmt_int (System.n_bytes_sent stats), System.n_packets_sent stats);
        np_down := (_format_speed down_speed, speed_style down_speed,
                    fmt_int (System.n_bytes_recv stats), System.n_packets_recv stats);
        np_peak_up := _format_speed (System.n_peak_send_speed stats);
        np_peak_down := _format_speed (System.n_peak_recv_speed stats);
        np_up_graph := up_graph;
        np_down_graph := down_graph;
        np_total_speed := _format_speed (up_speed + down_speed)%Q |}.

Record disk_row : Type := MkDiskRow {
  dr_mountpoint : string;
  dr_label : string;
  dr_type : string;
  dr_type_color : string;
  dr_style : string;
  dr_free : human;
  dr_total : human
}.

(** [type_colors.get(disk_type, 'white')]. *)
Definition type_color (disk_type : string) : string :=
  if String.eqb disk_type "Fixed" then "green"
  else if String.eqb disk_type "Removable" then "yellow"
  else if String.eqb disk_type "Network" then "blue"
  else if String.eqb disk_type "CDROM" then "magenta"
  else if String.eqb disk_type "RAM disk" then "cyan"
  else "white".

Definition draw_disks (stats : list System.disk_data) : list disk_row :=
  map (fun d =>
         {| dr_mountpoint := System.d_mountpoint d;
            dr_label := System.d_label d;
            dr_type := System.d_type d;
            dr_type_color := type_color (System.d_type d);
            dr_style :=
              tier 90 70 "red"%string "yellow"%string "green"%string (System.d_percent d);
            dr_free := fmt_int (System.d_free d);
            dr_total := fmt_int (System.d_total d) |})
      stats.

(** *** [draw_processes] *)

(** [sorted(stats, key=lambda x: x['cpu_percent'], reverse=True)]: a stable
    sort, equal keys keep their order. *)
Definition cpu_key (p : System.proc_row) : Q := System.cpu_percent (System.r_info p).

Fixpoint insert_desc (p : System.proc_row) (l : list System.proc_row)
  : list System.proc_row :=
  match l with
  | [] => [p]
  | q :: r =>
      if Py.Qltb (cpu_key p) (cpu_key q) then q :: insert_desc p r else p :: q :: r
  end.

Definition sorted_by_cpu (stats : list System.proc_row) : list System.proc_row :=
  foldr insert_desc [] stats.

(** The visible range: [start_idx], [end_idx] after the adjustment. *)
Definition visible_range (scroll_position total : Z) : Z * Z :=
  let start_idx := scroll_position in
  let end_idx := Z.min (start_idx + 30) total in
  if total <=? start_idx
  then (Z.max 0 (total - 30), total)
  else (start_idx, end_idx).

Definition status_style (th : Themes.theme) (status : string) : string :=
  let s := Py.lower status in
  if String.eqb s "running" then Themes.progress_low th
  else if String.eqb s "sleeping" then Themes.cpu th
  else if String.eqb s "stopped" then Themes.progress_high th
  else if String.eqb s "zombie" then Themes.progress_high th
  else if String.eqb s "disk-sleep" then Themes.progress_medium th
  else if String.eqb s "tracing-stop" then Themes.progress_medium th
  else Themes.text th.

(** Names longer than 30 characters: [name[:27] + "..."]. *)
Definition display_name (nm : string) : string :=
  if (30 <? String.length nm)%nat
  then String.append (String.substring 0 27 nm) "..."
  else nm.

Definition usage_style (th : Themes.theme) (v : Q) : string :=
  tier 50 20 (Themes.progress_high th) (Themes.progress_medium th)
       (Themes.progress_low th) v.

Record table_row : Type := MkTableRow {
  tr_pid : Z;
  tr_name : string;
  tr_cpu : Q;
  tr_cpu_style : string;
  tr_mem : Q;
  tr_mem_style : string;
  tr_status : string;
  tr_status_style : string;
  tr_threads : Z
}.

Definition process_row (th : Themes.theme) (proc : System.proc_row) : table_row :=
  let info := System.r_info proc in
  {| tr_pid := System.pid info;
     tr_name := display_name (System.name info);
     tr_cpu := System.cpu_percent info;
     tr_cpu_style := usage_style th (System.cpu_percent info);
     tr_mem := System.memory_percent info;
     tr_mem_style := usage_style th (System.memory_percent info);
     tr_status := System.status info;
     tr_status_style := status_style th (System.status info);
     tr_threads := System.num_threads info |}.

(** The panel: its rows, and the subtitle's ["Showing a-b of n"]. *)
Record process_panel : Type := MkProcessPanel {
  pp_rows : list table_row;
  pp_shown_from : Z;
  pp_shown_to : Z;
  pp_total : Z
}.

Definition draw_processes (th : Themes.theme) (stats : list System.proc_row)
  (scroll_position : Z) : process_panel :=
  let sorted_procs := sorted_by_cpu stats in
  let '(start_idx, end_idx) :=
    visible_range scroll_position (Z.of_nat (length sorted_procs)) in
  {| pp_rows := map (process_row th) (Py.slice sorted_procs start_idx end_idx);
     pp_shown_from := start_idx + 1;
     pp_shown_to := end_idx;
     pp_total := Z.of_nat (length sorted_procs) |}.

End Draw.

(** ** [config.py]: the settings the pipeline reads

    [config.get(key)] for the keys read by the modelled code: the truth of
    ["check_temp"], the string under ["graph_symbol"] and the list under
    ["presets"] (only its length is used). *)

Module Config.

Record settings : Type := MkSettings {
  check_temp : bool;
  graph_symbol : string;
  presets : nat
}.

(** [DEFAULT_CONFIG]: it has no ["presets"] key, so the default [[]] of
    [config.get("presets", [])] applies. *)
Definition DEFAULT_CONFIG : settings :=
  {| check_temp := true; graph_symbol := "braille"; presets := 0 |}.

End Config.

(** ** [__main__.py]: [SysView] *)

Module Main.

Inductive overlay_type : Type := Help | Menu | Filter.

(** [self.cached_stats]: every entry is [None] until the first refresh. *)
Record cache : Type := MkCache {
  k_cpu : option System.cpu_out;
  k_memory : option System.memory_out;
  k_disk : option (list System.disk_data);
  k_network : option System.net_out;
  k_processes : option (list System.proc_row);
  k_system : option System.system_info;
  k_battery : option System.battery_info
}.

Definition empty_cache : cache := MkCache None None None None None None None.

(** The state of a [SysView] object.  [overlay] keeps the ['type'] of the
    overlay dict; its panel and time stamp, like the [rich] layout tree, are
    rendering artefacts.  [selected_process], [overlay_time] and
    [overlay_duration] are never read and are left out. *)
Record SysView : Type := MkSysView {
  stats : System.SystemStats;
  theme : Themes.theme;
  running : bool;
  paused : bool;
  current_layout : Z;
  overlay : option overlay_type;
  process_sort_key : string;
  process_sort_reverse : bool;
  process_filter : string;
  filter_buffer : string;
  process_scroll : Z;
  cached_stats : cache
}.

(** [SysView.__init__]. *)
Definition init (theme_name : string) (io0 : System.net_io) (t0 : Q) : SysView :=
  {| stats := System.init io0 t0;
     theme := Themes.THEMES_get theme_name;
     running := true;
     paused := false;
     current_layout := 0;
     overlay := None;
     process_sort_key := "cpu_percent";
     process_sort_reverse := true;
     process_filter := "";
     filter_buffer := "";
     process_scroll := 0;
     cached_stats := empty_cache |}.

(** *** Attribute assignments *)

Definition set_stats (app : SysView) (s : System.SystemStats) : SysView :=
  MkSysView s (theme app) (running app) (paused app) (current_layout app)
            (overlay app) (process_sort_key app) (process_sort_reverse app)
            (process_filter app) (filter_buffer app) (process_scroll app)
            (cached_stats app).

Definition set_running (app : SysView) (b : bool) : SysView :=
  MkSysView (stats app) (theme app) b (paused app) (current_layout app)
            (overlay app) (process_sort_key app) (process_sort_reverse app)
            (process_filter app) (filter_buffer app) (process_scroll app)
            (cached_stats app).

Definition set_paused (app : SysView) (b : bool) : SysView :=
  MkSysView (stats app) (theme app) (running app) b (current_layout app)
            (overlay app) (process_sort_key app) (process_sort_reverse app)
            (process_filter app) (filter_buffer app) (process_scroll app)
            (cached_stats app).

Definition set_current_layout (app : SysView) (n : Z) : SysView :=
  MkSysView (stats app) (theme app) (running app) (paused app) n
            (overlay app) (process_sort_key app) (process_sort_reverse app)
            (process_filter app) (filter_buffer app) (process_scroll app)
            (cached_stats app).

Definition set_overlay (app : SysView) (o : option overlay_type) : SysView :=
  MkSysView (stats app) (theme app) (running app) (paused app) (current_layout app)
            o (process_sort_key app) (process_sort_reverse app)
            (process_filter app) (filter_buffer app) (process_scroll app)
            (cached_stats app).

Definition set_process_sort_key (app : SysView) (k : string) : SysView :=
  MkSysView (stats app) (theme app) (running app) (paused app) (current_layout app)
            (overlay app) k (process_sort_reverse app)
            (process_filter app) (filter_buffer app) (process_scroll app)
            (cached_stats app).

Definition set_process_filter (app : SysView) (f : string) : SysView :=
  MkSysView (stats app) (theme app) (running app) (paused app) (current_layout app)
            (overlay app) (process_sort_key app) (process_sort_reverse app)
            f (filter_buffer app) (process_scroll app)
            (cached_stats app).

Definition set_filter_buffer (app : SysView) (b : string) : SysView :=
  MkSysView (stats app) (theme app) (running app) (paused app) (current_layout app)
            (overlay app) (process_sort_key app) (process_sort_reverse app)
            (process_filter app) b (process_scroll app)
            (cached_stats app).

Definition set_process_scroll (app : SysView) (n : Z) : SysView :=
  MkSysView (stats app) (theme app) (running app) (paused app) (current_layout app)
            (overlay app) (process_sort_key app) (process_sort_reverse app)
            (process_filter app) (filter_buffer app) n
            (cached_stats app).

Definition set_cached_stats (app : SysView) (c : cache) : SysView :=
  MkSysView (stats app) (theme app) (running app) (paused app) (current_layout app)
            (overlay app) (process_sort_key app) (process_sort_reverse app)
            (process_filter app) (filter_buffer app) (process_scroll app)
            c.

(** *** The key handlers *)

Definition scroll_processes (app : SysView) (delta : Z) : SysView :=
  set_process_scroll app (Z.max 0 (process_scroll app + delta)).

Definition quit (app : SysView) : SysView := set_running app false.

(** [if self.overlay and self.overlay['type'] == ty]. *)
Definition overlay_is (app : SysView) (ty : overlay_type) : bool :=
  match overlay app, ty with
  | Some Help, Help => true
  | Some Menu, Menu => true
  | Some Filter, Filter => true
  | _, _ => false
  end.

(** [show_overlay] replaces whatever overlay was shown. *)
Definition show_overlay (app : SysView) (ty : overlay_type) : SysView :=
  set_overlay app (Some ty).

Definition toggle_help (app : SysView) : SysView :=
  if overlay_is app Help then set_overlay app None else show_overlay app Help.

Definition toggle_menu (app : SysView) : SysView :=
  if overlay_is app Menu then set_overlay app None else show_overlay app Menu.

Definition toggle_pause (app : SysView) : SysView :=
  set_paused app (negb (paused app)).

Definition toggle_sort (app : SysView) : SysView :=
  if String.eqb (process_sort_key app) "cpu_percent"
  then set_process_sort_key app "memory_percent"
  else set_process_sort_key app "cpu_percent".

Definition toggle_process_filter (app : SysView) : SysView :=
  if overlay_is app Filter then set_overlay app None else show_overlay app Filter.

(** [change_layout]: the assignment comes first; the range test against the
    configured presets guards an empty body. *)
Definition change_layout (cfg : Config.settings) (app : SysView) (layout_num : Z)
  : SysView :=
  let app1 := set_current_layout app (layout_num - 1) in
  if (0 <=? current_layout app1) && (current_layout app1 <? Z.of_nat (Config.presets cfg))
  then app1
  else app1.

(** *** [handle_keyboard] *)

(** What the console holds when [handle_keyboard] runs: nothing
    ([kbhit()] is false), the two-byte sequence of a special key (the
    prefix [0xe0] and the code read by the second [getch()]), or one byte
    other than that prefix. *)
Inductive key_event : Type :=
| NoKey
| Special (code : ascii)
| Plain (b : ascii).

(** [key.decode('utf-8').lower()] on a single byte: bytes from [0x80] up
    are not valid UTF-8 on their own. *)
Definition decode_lower (b : ascii) : outcome ascii :=
  if (nat_of_ascii b <? 128)%nat then Ok (Py.lower_ascii b) else Raised UnicodeDecodeError.

(** [key in '12345'] for a one-character [key]. *)
Definition is_layout_digit (c : ascii) : bool :=
  Py.contains (String c EmptyString) "12345".

(** [int(key)] for a decimal digit. *)
Definition int_of_digit (c : ascii) : Z := Z.of_nat (nat_of_ascii c) - 48.

Definition ENTER : ascii := ascii_of_nat 13.
Definition ESCAPE : ascii := ascii_of_nat 27.
Definition BACKSPACE : ascii := ascii_of_nat 8.

(** The last branch of the chain: keys typed while the filter overlay is
    shown. *)
Definition filter_key (app : SysView) (key : ascii) : SysView :=
  if Ascii.eqb key ENTER
  then set_overlay (set_process_filter app (filter_buffer app)) None
  else if Ascii.eqb key ESCAPE then set_overlay app None
  else if Ascii.eqb key BACKSPACE
  then set_filter_buffer app (Py.drop_last (filter_buffer app))
  else set_filter_buffer app (Py.push_char (filter_buffer app) key).

(** The [if]/[elif] chain on the decoded, lowercased key. *)
Definition dispatch (cfg : Config.settings) (app : SysView) (key : ascii) : SysView :=
  if Ascii.eqb key "q" then set_running app false
  else if Ascii.eqb key "p" then toggle_pause app
  else if Ascii.eqb key "h" then toggle_help app
  else if Ascii.eqb key "m" then toggle_menu app
  else if Ascii.eqb key "s" then toggle_sort app
  else if Ascii.eqb key "f" then toggle_process_filter app
  else if is_layout_digit key then change_layout cfg app (int_of_digit key)
  else if overlay_is app Filter then filter_key app key
  else app.

(** [handle_keyboard]: any exception is swallowed by [except Exception:
    pass]. *)
Definition handle_keyboard (cfg : Config.settings) (app : SysView) (ev : key_event)
  : SysView :=
  match ev with
  | NoKey => app
  | Special code =>
      if Ascii.eqb code "H" then scroll_processes app (-1)
      else if Ascii.eqb code "P" then scroll_processes app 1
      else if Ascii.eqb code "I" then scroll_processes app (-10)
      else if Ascii.eqb code "Q" then scroll_processes app 10
      else app
  | Plain b =>
      match decode_lower b with
      | Ok key => dispatch cfg app key
      | Raised _ => app
      end
  end.

(** A sequence of polls, one event each. *)
Definition handle_keys (cfg : Config.settings) (app : SysView) (evs : list key_event)
  : SysView :=
  fold_left (handle_keyboard cfg) evs app.

(** The events of typing an ASCII text, one character per poll. *)
Fixpoint typing (s : string) : list key_event :=
  match s with
  | EmptyString => []
  | String c r => Plain c :: typing r
  end.

(** *** [update] *)

(** What the provider answers during one refresh, in the order the getters
    ask. *)
Record tick : Type := MkTick {
  t_cpu : System.cpu_sample;
  t_mem : System.mem_sample;
  t_disk : System.disk_env;
  t_net : System.net_sample;
  t_procs : list System.raw_proc;
  t_host : System.host_sample;
  t_battery : outcome (option System.battery_raw)
}.

(** The not-paused branch: the seven getters run in the order of the dict
    literal, then [cached_stats.update] stores their results.  When a getter
    raises, the cache is not updated and the histories keep what the earlier
    getters appended. *)
Definition refresh (cfg : Config.settings) (app : SysView) (t : tick)
  : outcome unit * SysView :=
  let '(cpu, s1) := System.get_cpu_stats (Config.check_temp cfg) (stats app) (t_cpu t) in
  match System.get_memory_stats s1 (t_mem t) with
  | (Raised e, s2) => (Raised e, set_stats app s2)
  | (Ok mem, s2) =>
    match System.get_disk_stats (t_disk t) with
    | Raised e => (Raised e, set_stats app s2)
    | Ok disks =>
      match System.get_network_stats s2 (t_net t) with
      | (Raised e, s3) => (Raised e, set_stats app s3)
      | (Ok net, s3) =>
        let '(procs, s4) := System.get_process_stats s3 (t_procs t) in
        let sys := System.get_system_info (t_host t) in
        let bat := System.get_battery_info (t_battery t) in
        (Ok tt,
         set_cached_stats (set_stats app s4)
           {| k_cpu := Some cpu;
              k_memory := Some mem;
              k_disk := Some disks;
              k_network := Some net;
              k_processes := Some procs;
              k_system := Some sys;
              k_battery := bat |})
      end
    end
  end.

(** The header line: host name, hours and minutes of uptime
    ([int(uptime // 3600)], [int((uptime % 3600) // 60)]) and the pause
    marker. *)
Record header_line : Type := MkHeader {
  h_hostname : string;
  h_hours : Z;
  h_minutes : Z;
  h_paused : bool
}.

Definition floordiv (x d : Q) : Z := Qfloor (x / d).

Definition pymod (x d : Q) : Q := (x - d * inject_Z (floordiv x d))%Q.

Definition header_of (app : SysView) (sys : System.system_info) : header_line :=
  let uptime := System.si_uptime sys in
  {| h_hostname := System.si_hostname sys;
     h_hours := floordiv uptime 3600;
     h_minutes := floordiv (pymod uptime 3600) 60;
     h_paused := paused app |}.

(** What [update] hands to the rendering surface. *)
Inductive frame : Type :=
| OverlayFrame (hd : header_line) (ty : overlay_type) (buffer : string)
| LayoutFrame (hd : header_line)
              (cpu : Draw.cpu_panel)
              (memory : Draw.memory_panel)
              (network : Draw.network_panel)
              (disks : list Draw.disk_row)
              (processes : Draw.process_panel)
              (battery : option System.battery_info).

(** Subscripting or iterating a cache entry that is still [None]. *)
Definition cached {A : Type} (entry : option A) : outcome A :=
  match entry with
  | Some a => Ok a
  | None => Raised TypeError
  end.

(** [[p for p in proc_stats if self.process_filter.lower() in
    p['name'].lower()]], applied when [process_filter] is not empty. *)
Definition apply_filter (process_filter : string) (procs : list System.proc_row)
  : list System.proc_row :=
  match process_filter with
  | EmptyString => procs
  | _ =>
      List.filter
        (fun p => Py.contains (Py.lower process_filter)
                              (Py.lower (System.name (System.r_info p))))
        procs
  end.

(** Everything after the refresh. *)
Definition render (cfg : Config.settings) (app : SysView) : outcome frame :=
  let c := cached_stats app in
  sys ← cached (k_system c);
  let hd := header_of app sys in
  match overlay app with
  | Some ty => Ok (OverlayFrame hd ty (filter_buffer app))
  | None =>
      cpu_stats ← cached (k_cpu c);
      cpu ← Draw.draw_cpu (Config.graph_symbol cfg) cpu_stats;
      mem_stats ← cached (k_memory c);
      mem ← Draw.draw_memory (Config.graph_symbol cfg) mem_stats
               (Deque.items (System.memory_history (stats app)));
      net_stats ← cached (k_network c);
      net ← Draw.draw_network (Config.graph_symbol cfg) net_stats;
      disk_stats ← cached (k_disk c);
      let disks := Draw.draw_disks disk_stats in
      proc_stats ← cached (k_processes c);
      let procs :=
        Draw.draw_processes (theme app) (apply_filter (process_filter app) proc_stats)
                            (process_scroll app) in
      Ok (LayoutFrame hd cpu mem net disks procs (k_battery c))
  end.

(** [update]: the frame, or the exception that leaves the loop, and the
    state after the call. *)
Definition update (cfg : Config.settings) (app : SysView) (t : tick)
  : outcome frame * SysView :=
  if paused app
  then (render cfg app, app)
  else
    match refresh cfg app t with
    | (Raised e, app1) => (Raised e, app1)
    | (Ok _, app1) => (render cfg app1, app1)
    end.

End Main.

(** ** Runs of the history engine *)

Module Traces.

(** The [n] most recent values of a log, in arrival order. *)
Definition most_recent {A : Type} (n : nat) (log : list A) : list A :=
  drop (length log - n) log.

(** One call of a getter that feeds a history buffer. *)
Inductive ingest : Type :=
| IngestCpu (s : System.cpu_sample)
| IngestMemory (m : System.mem_sample)
| IngestNetwork (n : System.net_sample).

Definition ingest_step (check_temp : bool) (st : System.SystemStats) (ev : ingest)
  : outcome (option System.net_out) * System.SystemStats :=
  match ev with
  | IngestCpu s => (Ok None, snd (System.get_cpu_stats check_temp st s))
  | IngestMemory m =>
      match System.get_memory_stats st m with
      | (Ok _, st1) => (Ok None, st1)
      | (Raised e, st1) => (Raised e, st1)
      end
  | IngestNetwork n =>
      match System.get_network_stats st n with
      | (Ok out, st1) => (Ok (Some out), st1)
      | (Raised e, st1) => (Raised e, st1)
      end
  end.

(** A sequence of calls, stopped by the first exception: the dicts the
    network getter returned, or the exception, and the state reached. *)
Fixpoint run (check_temp : bool) (st : System.SystemStats) (evs : list ingest)
  : outcome (list System.net_out) * System.SystemStats :=
  match evs with
  | [] => (Ok [], st)
  | ev :: rest =>
      match ingest_step check_temp st ev with
      | (Raised e, st1) => (Raised e, st1)
      | (Ok o, st1) =>
          match run check_temp st1 rest with
          | (Ok outs, st2) => (Ok (option_list o ++ outs), st2)
          | (Raised e, st2) => (Raised e, st2)
          end
      end
  end.




(** The network getter alone, over a sequence of observations. *)
Definition network_run (st : System.SystemStats) (samples : list System.net_sample)
  : outcome (list System.net_out) * System.SystemStats :=
  run false st (map IngestNetwork samples).

(** A network observation with only the sent-bytes counter and the clock. *)
Definition sent_at (sent : Z) (time : Q) : System.net_sample :=
  System.MkNetSample (System.MkNetIo sent 0 0 0) time.


End Traces.

(** ** Concrete inputs used in the evaluations below *)

Module Examples.

Definition io0 : System.net_io := System.MkNetIo 0 0 0 0.

(** A freshly constructed application with the default theme. *)
Definition app0 : Main.SysView := Main.init "default" io0 0.

Definition proc (pid : Z) (name : string) (cpu mem : Q) : System.raw_proc :=
  System.MkRawProc
    (System.MkProcInfo pid name "user" cpu mem 0 "running" 1)
    (Ok (0, 0)) (Ok []).

(** Two processes: the first leads on CPU, the second on memory. *)
Definition busy : System.raw_proc := proc 1 "busy" 10 1.
Definition large : System.raw_proc := proc 2 "large" 5 50.

Definition no_disks : System.disk_env :=
  System.MkDiskEnv "Linux" 0 (fun _ => Raised KeyError) (fun _ => 0) (Ok []) (Ok []).

Definition host : System.host_sample :=
  System.MkHostSample "host" "Linux" "" "" "" "" 0 7384.

Definition quiet_mem : System.mem_sample :=
  System.MkMemSample 1000 500 500 500 50 None None 0 0 0 0.

(** One refresh, one second after construction, that enumerates [busy]
    and [large] in that order. *)
Definition tick1 : Main.tick :=
  Main.MkTick (System.MkCpuSample 10 [10]%Q (Ok None) (Ok []))
              quiet_mem no_disks (Traces.sent_at 100 1)
              [busy; large] host (Ok None).

(** The pids of the process table of a frame, top row first. *)
Definition frame_pids (f : outcome Main.frame) : option (list Z) :=
  match f with
  | Ok (Main.LayoutFrame _ _ _ _ _ procs _) => Some (map Draw.tr_pid (Draw.pp_rows procs))
  | _ => None
  end.

(** A list of [n] processes with pids [0 .. n-1] and equal CPU usage. *)
Definition many (n : nat) : list System.proc_row :=
  map (fun k =>
         System.MkProcRow
           (System.MkProcInfo (Z.of_nat k) "p" "user" 0 0 0 "running" 1) [] 0 0 "")
      (seq 0 n).

End Examples.

(** ** The graph, as the specification words it *)

Module GraphSpec.









End GraphSpec.

(** ** Runs of the process getter *)

Module ProcessRuns.

(** The pids of an enumeration. *)
Definition pids (procs : list System.raw_proc) : list Z :=
  map (fun p => System.pid (System.rp_info p)) procs.

(** The CPU percentage an enumeration reports for a pid, if it lists it. *)
Fixpoint cpu_of (p : Z) (procs : list System.raw_proc) : option Q :=
  match procs with
  | [] => None
  | q :: rest =>
      if System.pid (System.rp_info q) =? p
      then Some (System.cpu_percent (System.rp_info q))
      else cpu_of p rest
  end.

(** Successive calls of [get_process_stats], oldest enumeration first. *)
Definition run (st : System.SystemStats) (enums : list (list System.raw_proc))
  : System.SystemStats :=
  fold_left (fun s e => snd (System.get_process_stats s e)) enums st.

(** The CPU percentages of a pid over the enumerations since it was last
    absent: the values of its current, uninterrupted presence. *)
Definition streak (p : Z) (enums : list (list System.raw_proc)) : list Q :=
  fold_left (fun acc e => match cpu_of p e with
                          | Some c => acc ++ [c]
                          | None => []
                          end) enums [].

(** The private history that corresponds to a streak. *)
Definition history_of (s : list Q) : option (Deque.deque Q) :=
  match s with
  | [] => None
  | _ :: _ => Some (Deque.MkDeque 10 (Traces.most_recent 10 s))
  end.

End ProcessRuns.

(** * Verification *)

(** ** The bounded deque *)

Section DequeFacts.
Context {A : Type}.
Implicit Types (d : Deque.deque A) (x : A) (log : list A).

Lemma deque_append_maxlen d x : Deque.maxlen (Deque.append d x) = Deque.maxlen d.
Proof. reflexivity. Qed.





End DequeFacts.

(** ** The history buffers *)









(** ** Network rates and peaks *)

Lemma max2_ge_l (a b : Q) : (a <= Py.max2 a b)%Q.
Proof.
  unfold Py.max2, Py.Qltb.
  destruct (Qle_bool b a) eqn:E; simpl.
  - apply Qle_refl.
  - apply Qlt_le_weak, Qnot_le_lt. intros H.
    apply Qle_bool_iff in H. congruence.
Qed.


(** With no time elapsed since the previous call the division raises and
    nothing is stored. *)
Lemma get_network_stats_zero_elapsed (st : System.SystemStats) (s : System.net_sample) :
  (System.ns_time s == System.prev_time st)%Q ->
  System.get_network_stats st s = (Raised ZeroDivisionError, st).
Proof.
  intros Heq. unfold System.get_network_stats, Py.truediv.
  assert (H0 : Qeq_bool (System.ns_time s - System.prev_time st) 0 = true).
  { apply Qeq_bool_iff. rewrite Heq. ring. }
  now rewrite H0.
Qed.

(** What a returning call computes and stores. *)
Lemma get_network_stats_ok (st st1 : System.SystemStats) (s : System.net_sample)
  (out : System.net_out) :
  System.get_network_stats st s = (Ok out, st1) ->
  ~ (System.ns_time s - System.prev_time st == 0)%Q /\
  System.n_send_speed out
    = (inject_Z (System.bytes_sent (System.ns_io s)
                 - System.bytes_sent (System.prev_net_io st))
       / (System.ns_time s - System.prev_time st))%Q /\
  System.n_recv_speed out
    = (inject_Z (System.bytes_recv (System.ns_io s)
                 - System.bytes_recv (System.prev_net_io st))
       / (System.ns_time s - System.prev_time st))%Q /\
  System.peak_send_speed st1 = Py.max2 (System.peak_send_speed st) (System.n_send_speed out) /\
  System.peak_recv_speed st1 = Py.max2 (System.peak_recv_speed st) (System.n_recv_speed out) /\
  System.n_peak_send_speed out = System.peak_send_speed st1 /\
  System.n_peak_recv_speed out = System.peak_recv_speed st1 /\
  System.prev_net_io st1 = System.ns_io s /\
  System.prev_time st1 = System.ns_time s.
Proof.
  unfold System.get_network_stats, Py.truediv. intros H.
  destruct (Qeq_bool (System.ns_time s - System.prev_time st) 0) eqn:E; [discriminate |].
  apply Qeq_bool_neq in E.
  destruct (100 <? Deque.len _)%nat; [discriminate |].
  injection H as <- <-. simpl. repeat split; auto.
Qed.

(** A raising call stores no new peak. *)
Lemma get_network_stats_peaks (st st1 : System.SystemStats) (s : System.net_sample)
  (r : outcome System.net_out) :
  System.get_network_stats st s = (r, st1) ->
  (System.peak_send_speed st <= System.peak_send_speed st1)%Q /\
  (System.peak_recv_speed st <= System.peak_recv_speed st1)%Q.
Proof.
  unfold System.get_network_stats, Py.truediv.
  destruct (Qeq_bool _ 0).
  - intros [= <- <-]. split; apply Qle_refl.
  - destruct (100 <? Deque.len _)%nat; simpl; intros [= <- <-]; simpl;
      split; apply max2_ge_l.
Qed.

Lemma ingest_step_peaks ct st ev r st1 :
  Traces.ingest_step ct st ev = (r, st1) ->
  (System.peak_send_speed st <= System.peak_send_speed st1)%Q /\
  (System.peak_recv_speed st <= System.peak_recv_speed st1)%Q.
Proof.
  destruct ev as [s | m | n]; simpl.
  - unfold System.get_cpu_stats. destruct (System.read_freq _) as [[? ?] ?]; simpl.
    intros [= <- <-]. split; apply Qle_refl.
  - unfold System.get_memory_stats.
    destruct (100 <? _)%nat; simpl; intros [= <- <-]; split; apply Qle_refl.
  - destruct (System.get_network_stats st n) as [[out | e] st'] eqn:E;
      intros [= <- <-]; eapply get_network_stats_peaks; eauto.
Qed.

Lemma ingest_step_reported ct st ev out st1 :
  Traces.ingest_step ct st ev = (Ok (Some out), st1) ->
  System.n_peak_send_speed out = System.peak_send_speed st1 /\
  System.n_peak_recv_speed out = System.peak_recv_speed st1.
Proof.
  destruct ev as [s | m | n]; simpl.
  - discriminate.
  - destruct (System.get_memory_stats st m) as [[? | ?] ?]; discriminate.
  - destruct (System.get_network_stats st n) as [[o | e] st'] eqn:E; [| discriminate].
    intros [= <- <-]. apply get_network_stats_ok in E. tauto.
Qed.

Lemma Forall_Qle_trans (a b : Q) (l : list Q) :
  (a <= b)%Q -> Forall (Qle b) l -> Forall (Qle a) l.
Proof.
  intros Hab H. induction H; constructor; auto.
  eapply Qle_trans; eauto.
Qed.

Lemma run_peaks ct evs : forall st,
  let res := Traces.run ct st evs in
  ((System.peak_send_speed st <= System.peak_send_speed (snd res))%Q /\
   (System.peak_recv_speed st <= System.peak_recv_speed (snd res))%Q) /\
  forall outs, fst res = Ok outs ->
    StronglySorted Qle (System.peak_send_speed st :: map System.n_peak_send_speed outs) /\
    StronglySorted Qle (System.peak_recv_speed st :: map System.n_peak_recv_speed outs).
Proof.
  induction evs as [| ev evs IH]; intros st; simpl.
  - split; [split; apply Qle_refl |].
    intros outs [= <-]; simpl. split; repeat constructor.
  - destruct (Traces.ingest_step ct st ev) as [[o | e] st1] eqn:Es.
    + pose proof (ingest_step_peaks _ _ _ _ _ Es) as [Hs Hr].
      specialize (IH st1). simpl in IH. destruct IH as [[IHs IHr] IHo].
      destruct (Traces.run ct st1 evs) as [[outs | e] st2]; simpl in *.
      * split; [split; eapply Qle_trans; eauto |].
        intros outs' [= <-].
        destruct (IHo outs eq_refl) as [Ss Sr].
        apply StronglySorted_inv in Ss as [Ss Fs].
        apply StronglySorted_inv in Sr as [Sr Fr].
        destruct o as [out |]; simpl.
        -- destruct (ingest_step_reported _ _ _ _ _ Es) as [-> ->].
           split; constructor;
             try (constructor; assumption);
             (constructor; [assumption | eapply Forall_Qle_trans; eauto]).
        -- split; constructor; try assumption; eapply Forall_Qle_trans; eauto.
      * split; [split; eapply Qle_trans; eauto |]. intros outs; discriminate.
    + simpl. split; [eapply ingest_step_peaks; eauto | intros outs; discriminate].
Qed.

(** C1.  The rate computation has no guard on the elapsed time.  With the
    clock unchanged since the previous ingest ([prev_time = 5], sample taken
    at time [5]) the call raises [ZeroDivisionError] instead of reporting 0
    and the state is left as it was; with the clock one second back (sample
    at time [4]) the reported send speed is the negative quotient [-100],
    not 0. *)
Theorem network_rate_zero_elapsed_raises :
  let st := System.init (System.MkNetIo 0 0 0 0) 5 in
  System.get_network_stats st (Traces.sent_at 100 5) = (Raised ZeroDivisionError, st) /\
  (exists out st1,
     System.get_network_stats st (Traces.sent_at 100 4) = (Ok out, st1) /\
     (System.n_send_speed out == - (100))%Q).
Proof.
  split.
  - apply get_network_stats_zero_elapsed. reflexivity.
  - do 2 eexists. split; [reflexivity |]. reflexivity.
Qed.

(** C7.  An ingest that returns stores [max(current_peak, new_rate)] in each
    peak and reports the stored value; over any run of the getters neither
    peak ever decreases, whether the run returns or raises, and the peaks
    reported by a returning run form a non-decreasing sequence that starts at
    or above the initial peak.  Counters [10, 60, 90, 170, 190] read at times
    [1 .. 5] after a start at 0 give the rates [10, 50, 30, 80, 20] and the
    peaks [10, 50, 50, 80, 80]. *)
Theorem peak_speeds_never_decrease :
  (forall st s out st1,
     System.get_network_stats st s = (Ok out, st1) ->
     System.peak_send_speed st1 = Py.max2 (System.peak_send_speed st) (System.n_send_speed out) /\
     System.peak_recv_speed st1 = Py.max2 (System.peak_recv_speed st) (System.n_recv_speed out) /\
     System.n_peak_send_speed out = System.peak_send_speed st1 /\
     System.n_peak_recv_speed out = System.peak_recv_speed st1) /\
  (forall check_temp st evs,
     let res := Traces.run check_temp st evs in
     (System.peak_send_speed st <= System.peak_send_speed (snd res))%Q /\
     (System.peak_recv_speed st <= System.peak_recv_speed (snd res))%Q /\
     forall outs, fst res = Ok outs ->
       StronglySorted Qle (System.peak_send_speed st :: map System.n_peak_send_speed outs) /\
       StronglySorted Qle (System.peak_recv_speed st :: map System.n_peak_recv_speed outs)) /\
  (exists outs st1,
     Traces.network_run (System.init (System.MkNetIo 0 0 0 0) 0)
       [Traces.sent_at 10 1; Traces.sent_at 60 2; Traces.sent_at 90 3;
        Traces.sent_at 170 4; Traces.sent_at 190 5] = (Ok outs, st1) /\
     map System.n_send_speed outs = [10; 50; 30; 80; 20]%Q /\
     map System.n_peak_send_speed outs = [10; 50; 50; 80; 80]%Q).
Proof.
  split; [| split].
  - intros st s out st1 H. apply get_network_stats_ok in H. tauto.
  - intros ct st evs res. subst res.
    destruct (run_peaks ct evs st) as [[Hs Hr] Ho]. auto.
  - do 2 eexists. split; [vm_compute; reflexivity |].
    split; vm_compute; reflexivity.
Qed.

Lemma peak_speeds_never_decrease_witness :
  let st := System.init (System.MkNetIo 0 0 0 0) 0 in
  let res := Traces.run false st [Traces.IngestNetwork (Traces.sent_at 10 1);
                                  Traces.IngestNetwork (Traces.sent_at 15 2)] in
  StronglySorted Qle
    (System.peak_send_speed st
       :: map System.n_peak_send_speed (match fst res with Ok o => o | Raised _ => [] end)).
Proof.
  intros st res.
  destruct peak_speeds_never_decrease as (_ & H & _).
  destruct (H false st [Traces.IngestNetwork (Traces.sent_at 10 1);
                        Traces.IngestNetwork (Traces.sent_at 15 2)]) as (_ & _ & Ho).
  exact (proj1 (Ho _ eq_refl)).
Defined.

(** ** The keyboard state machine *)

(** [render] reads neither the sort key nor the sort direction. *)
Lemma render_ignores_sort_key (cfg : Config.settings) (app : Main.SysView) (k : string) :
  Main.render cfg (Main.set_process_sort_key app k) = Main.render cfg app.
Proof. reflexivity. Qed.

Lemma toggle_sort_involutive (app : Main.SysView) :
  Main.process_sort_key app = "cpu_percent"%string \/
  Main.process_sort_key app = "memory_percent"%string ->
  Main.toggle_sort (Main.toggle_sort app) = app.
Proof.
  destruct app; simpl. intros [-> | ->]; reflexivity.
Qed.

(** C2.  The hotkey branches of [handle_keyboard] come before the branch of
    the filter overlay.  From a fresh application, [f] followed by the
    characters [s], [s], [h] toggles the sort key twice and replaces the
    filter overlay by the help overlay; the following Enter (or Escape)
    reaches no branch.  The run ends with the help overlay shown, an empty
    [process_filter] and an empty [filter_buffer], not with
    [process_filter = "ssh"] in the normal state. *)
Theorem filter_typing_shadowed_by_hotkeys :
  forall (cfg : Config.settings) (theme_name : string) (io0 : System.net_io) (t0 : Q),
    let app := Main.init theme_name io0 t0 in
    let entered :=
      Main.handle_keys cfg app
        (Main.Plain "f" :: Main.typing "ssh" ++ [Main.Plain Main.ENTER]) in
    let escaped :=
      Main.handle_keys cfg app
        (Main.Plain "f" :: Main.typing "ssh" ++ [Main.Plain Main.ESCAPE]) in
    Main.overlay entered = Some Main.Help /\
    Main.process_filter entered = ""%string /\
    Main.filter_buffer entered = ""%string /\
    Main.overlay escaped = Some Main.Help /\
    Main.process_filter escaped = ""%string.
Proof. intros. repeat split. Qed.

(** C3.  [draw_processes] always sorts by CPU percentage, descending; the
    sort key that [s] toggles is not read by the rendering.  After one press
    of [s] the key is ["memory_percent"], yet the refresh that enumerates
    [busy] (CPU 10, memory 1) and [large] (CPU 5, memory 50) shows [busy]
    first: the rows are in CPU order, not in memory order. *)
Theorem process_panel_ignores_sort_key :
  let cfg := Config.DEFAULT_CONFIG in
  let app := Main.handle_keyboard cfg Examples.app0 (Main.Plain "s") in
  Main.process_sort_key app = "memory_percent"%string /\
  Examples.frame_pids (fst (Main.update cfg app Examples.tick1)) = Some [1; 2] /\
  (forall cfg' app' k,
     Main.render cfg' (Main.set_process_sort_key app' k) = Main.render cfg' app').
Proof.
  split; [reflexivity |]. split; [vm_compute; reflexivity |].
  intros. apply render_ignores_sort_key.
Qed.

(** C9.  [change_layout] assigns [layout_num - 1] before it looks at the
    configured presets, and the range test guards an empty body: with the
    default configuration, which has no presets, the key [3] sets the layout
    index to 2 instead of leaving it at 0; for every configuration and every
    argument the index is set. *)
Theorem layout_digit_sets_index_without_presets :
  Config.presets Config.DEFAULT_CONFIG = 0%nat /\
  Main.current_layout Examples.app0 = 0 /\
  Main.current_layout
    (Main.handle_keyboard Config.DEFAULT_CONFIG Examples.app0 (Main.Plain "3")) = 2 /\
  (forall cfg app d, Main.current_layout (Main.change_layout cfg app d) = d - 1).
Proof.
  repeat split. intros cfg app d. unfold Main.change_layout.
  destruct (_ && _); reflexivity.
Qed.

(** ** The render loop *)

(** C8.  While [paused] is true, [update] calls no getter: the state after
    the call is the state before it (history buffers, per-process
    histories, peaks, previous counters and time stamp, and the cached
    snapshot included), the frame is rendered from that unchanged state, and
    nothing of the result depends on what the provider would have
    answered. *)
Theorem paused_update_freezes_engine :
  forall (cfg : Config.settings) (app : Main.SysView) (t : Main.tick),
    Main.paused app = true ->
    snd (Main.update cfg app t) = app /\
    Main.stats (snd (Main.update cfg app t)) = Main.stats app /\
    Main.cached_stats (snd (Main.update cfg app t)) = Main.cached_stats app /\
    fst (Main.update cfg app t) = Main.render cfg app /\
    (forall t', Main.update cfg app t' = Main.update cfg app t).
Proof.
  intros cfg app t Hp. unfold Main.update. rewrite Hp. simpl.
  repeat split.
Qed.

Lemma paused_update_freezes_engine_witness :
  let app := Main.toggle_pause (snd (Main.update Config.DEFAULT_CONFIG
                                                  Examples.app0 Examples.tick1)) in
  Main.paused app = true /\
  Main.stats (snd (Main.update Config.DEFAULT_CONFIG app Examples.tick1)) = Main.stats app.
Proof.
  intros app. split; [reflexivity |].
  exact (proj1 (proj2 (paused_update_freezes_engine
                         Config.DEFAULT_CONFIG app Examples.tick1 eq_refl))).
Defined.

(** ** The process table *)

Lemma insert_desc_perm (p : System.proc_row) (l : list System.proc_row) :
  Permutation (Draw.insert_desc p l) (p :: l).
Proof.
  induction l as [| q r IH]; simpl; [reflexivity |].
  destruct (Py.Qltb _ _); [| reflexivity].
  rewrite IH. apply perm_swap.
Qed.

Lemma sorted_by_cpu_perm (l : list System.proc_row) :
  Permutation (Draw.sorted_by_cpu l) l.
Proof.
  induction l as [| p r IH]; simpl; [reflexivity |].
  unfold Draw.sorted_by_cpu in *; simpl.
  rewrite insert_desc_perm. now constructor.
Qed.

Lemma sorted_by_cpu_length (l : list System.proc_row) :
  length (Draw.sorted_by_cpu l) = length l.
Proof. apply Permutation_length, sorted_by_cpu_perm. Qed.

(** A slice with both bounds inside the sequence. *)
Lemma slice_inside {A : Type} (l : list A) (s e : Z) :
  0 <= s <= e -> e <= Z.of_nat (length l) ->
  Py.slice l s e = take (Z.to_nat (e - s)) (drop (Z.to_nat s) l) /\
  length (Py.slice l s e) = Z.to_nat (e - s).
Proof.
  intros Hs He. unfold Py.slice, Py.norm_index.
  destruct (Z.ltb_spec s 0); [lia |].
  destruct (Z.ltb_spec e 0); [lia |].
  rewrite !Z.min_l by lia. split; [reflexivity |].
  rewrite length_take, length_drop. lia.
Qed.

(** The window of [draw_processes], for a scroll position that is not
    negative. *)
Lemma draw_processes_window (th : Themes.theme) (procs : list System.proc_row) (off : Z) :
  0 <= off ->
  let total := Z.of_nat (length procs) in
  let '(s, e) := Draw.visible_range off total in
  0 <= s <= e /\ e <= total /\
  Draw.pp_rows (Draw.draw_processes th procs off)
    = map (Draw.process_row th)
          (take (Z.to_nat (e - s)) (drop (Z.to_nat s) (Draw.sorted_by_cpu procs))) /\
  length (Draw.pp_rows (Draw.draw_processes th procs off)) = Z.to_nat (e - s).
Proof.
  intros Hoff total. unfold Draw.draw_processes.
  rewrite sorted_by_cpu_length. fold total.
  destruct (Draw.visible_range off total) as [s e] eqn:E. simpl.
  assert (Hr : 0 <= s <= e /\ e <= total).
  { unfold Draw.visible_range in E.
    destruct (Z.leb_spec total off); injection E as <- <-; lia. }
  destruct Hr as [Hs He].
  destruct (slice_inside (Draw.sorted_by_cpu procs) s e Hs) as [Hsl Hlen].
  { rewrite sorted_by_cpu_length. exact He. }
  split; [exact Hs |]. split; [exact He |].
  rewrite length_map, Hlen, Hsl. split; reflexivity.
Qed.

(** C4, the claim as stated fails: with 45 processes and scroll position
    20 the panel shows the 25 entries [20, 45), not a page of
    [min(30, 45) = 30] entries. *)
Lemma scroll_window_short_page :
  ~ (forall (th : Themes.theme) (procs : list System.proc_row) (off : Z),
       0 <= off ->
       length (Draw.pp_rows (Draw.draw_processes th procs off))
       = Nat.min 30 (length procs)).
Proof.
  intros H.
  specialize (H Themes.default (Examples.many 45) 20 ltac:(lia)).
  vm_compute in H. discriminate.
Qed.

(** C4, amended.  For a scroll position [off >= 0] (the handlers clamp it
    at 0) and a list of [L] processes, the rows shown are consecutive
    entries of the CPU-sorted list and never more than [L]: for [off < L]
    the window is [[off, min(off + 30, L))], of [min(30, L - off)] entries;
    for [off >= L] it sticks to the end, [[max(0, L - 30), L)], a page of
    [min(30, L)] entries.  For [L = 45], position 100 gives [[15, 45)] and a
    request of -5 from position 0, clamped to 0, gives [[0, 30)]. *)
Theorem scroll_window_clamped_on_overflow :
  forall (th : Themes.theme) (procs : list System.proc_row) (off : Z),
    0 <= off ->
    let L := Z.of_nat (length procs) in
    let panel := Draw.draw_processes th procs off in
    let sorted := Draw.sorted_by_cpu procs in
    (length (Draw.pp_rows panel) <= length procs)%nat /\
    (off < L ->
       Draw.visible_range off L = (off, Z.min (off + 30) L) /\
       Draw.pp_rows panel
         = map (Draw.process_row th)
               (take (Z.to_nat (Z.min 30 (L - off))) (drop (Z.to_nat off) sorted)) /\
       Z.of_nat (length (Draw.pp_rows panel)) = Z.min 30 (L - off)) /\
    (L <= off ->
       Draw.visible_range off L = (Z.max 0 (L - 30), L) /\
       Draw.pp_rows panel
         = map (Draw.process_row th) (drop (Z.to_nat (Z.max 0 (L - 30))) sorted) /\
       Z.of_nat (length (Draw.pp_rows panel)) = Z.min 30 L) /\
    Draw.visible_range 100 45 = (15, 45) /\
    Draw.visible_range
      (Main.process_scroll (Main.scroll_processes Examples.app0 (-5))) 45 = (0, 30).
Proof.
  intros th procs off Hoff L panel sorted.
  pose proof (draw_processes_window th procs off Hoff) as H. simpl in H.
  fold L in H. fold panel in H. fold sorted in H.
  assert (Hlen : length sorted = length procs) by apply sorted_by_cpu_length.
  split; [| split; [| split; [| split; reflexivity]]].
  - destruct (Draw.visible_range off L) as [s e].
    destruct H as (Hs & He & _ & ->). lia.
  - intros Hlt.
    assert (E : Draw.visible_range off L = (off, Z.min (off + 30) L)).
    { unfold Draw.visible_range. destruct (Z.leb_spec L off); [lia | reflexivity]. }
    rewrite E in H. destruct H as (_ & _ & Hrows & Hl).
    split; [exact E |].
    replace (Z.min 30 (L - off)) with (Z.min (off + 30) L - off) by lia.
    split; [exact Hrows | rewrite Hl; lia].
  - intros Hge.
    assert (E : Draw.visible_range off L = (Z.max 0 (L - 30), L)).
    { unfold Draw.visible_range. destruct (Z.leb_spec L off); [reflexivity | lia]. }
    rewrite E in H. destruct H as (_ & _ & Hrows & Hl).
    split; [exact E |].
    split; [| rewrite Hl; lia].
    rewrite Hrows. f_equal. apply take_ge.
    rewrite length_drop. lia.
Qed.

Lemma scroll_window_clamped_on_overflow_witness :
  Z.of_nat (length (Draw.pp_rows (Draw.draw_processes Themes.default (Examples.many 45) 20)))
  = Z.min 30 (45 - 20).
Proof.
  destruct (scroll_window_clamped_on_overflow Themes.default (Examples.many 45) 20
              ltac:(lia)) as (_ & H & _).
  exact (proj2 (proj2 (H ltac:(vm_compute; reflexivity)))).
Defined.

(** ** The graph *)






Lemma range_down_In (n y : Z) : In y (Py.range_down n) <-> 0 <= y < n.
Proof.
  unfold Py.range_down. rewrite in_map_iff. split.
  - intros (k & <- & Hk). apply in_seq in Hk. lia.
  - intros Hy. exists (Z.to_nat (n - 1 - y)). split; [lia | apply in_seq; lia].
Qed.





























(** *** The series [0, H, 2H] *)







